(** * The to-do list data-access layer (backend/src/dal.py)

    A shallow embedding of the view models [ListSummary], [ToDoListItem],
    [ToDoList] and of the access layer [ToDoDAL], over an in-memory model of
    the document collection the layer talks to.

    Python objects coming back from the store are values of [value]; a
    stored document is a dictionary, kept as an association list in field
    order.  Every method of the layer is a computation in the monad [M]: it
    threads the [world] (the collection's documents, the log of requests
    sent to the store, the numbers of random tokens and of object ids made)
    and ends either with a value or with a raised exception.

    A [ToDoDAL] object is its attribute dictionary.  The constructor stores
    the collection handle under [_todo_collection]; every method reads the
    attribute [todo_collection], and that read is the first thing the method
    does.  The handle is a Motor collection: it has [find], [find_one],
    [delete_one] and [insert_one], and no method [find_one_and_update_one].
    [ObjectID] is bson's object-id constructor.  bson's parser, Python's
    [str], pydantic's field validation and the random source behind [uuid4]
    are interfaces of [Runtime], the driver's source of object ids is
    [Driver]; [reference_runtime] and [reference_driver] implement them, to
    evaluate the layer on concrete inputs. *)

From Stdlib Require Import List String Ascii ZArith NArith Bool Lia DecimalString.
From Stdlib Require Import Sorting.Sorted Sorting.Permutation.
Import ListNotations.
Open Scope string_scope.

(** ** Python values and exceptions *)

(** bson's object id, held as its canonical hexadecimal text. *)
Record ObjectId := mkObjectId { oid_hex : string }.

Definition oid_eqb (a b : ObjectId) : bool := (oid_hex a =? oid_hex b)%string.

#[local] Set Warnings "-register-all".
Inductive value :=
| VNone
| VBool (b : bool)
| VInt (n : Z)
| VStr (s : string)
| VOid (o : ObjectId)
| VList (l : list value)
| VDict (d : list (string * value)).

Definition dict := list (string * value).

Inductive exn :=
| KeyError (key : string)
| AttributeError (name : string)
| TypeError
| ValidationError
| InvalidId
| OperationFailure.

Inductive result (A : Type) :=
| Ok (a : A)
| Raise (e : exn).
Arguments Ok {A} a.
Arguments Raise {A} e.

Definition result_bind {A B} (r : result A) (k : A -> result B) : result B :=
  match r with
  | Ok a => k a
  | Raise e => Raise e
  end.

Declare Scope result_scope.
Delimit Scope result_scope with result.
Notation "x <-- r ;; k" := (result_bind r (fun x => k))
  (at level 61, r at next level, right associativity) : result_scope.

(** [d.get(key)]: the first binding of [key]. *)
Fixpoint lookup (key : string) (d : dict) : option value :=
  match d with
  | [] => None
  | (k, v) :: rest => if (k =? key)%string then Some v else lookup key rest
  end.

(** [d[key] = v]: replaces the binding in place, or adds it at the end. *)
Fixpoint assign (key : string) (v : value) (d : dict) : dict :=
  match d with
  | [] => [(key, v)]
  | (k, x) :: rest =>
      if (k =? key)%string then (k, v) :: rest else (k, x) :: assign key v rest
  end.

(** [obj[key]] for a string key: a dictionary raises [KeyError] on a key it
    does not hold, every other object raises [TypeError]. *)
Definition subscript (obj : value) (key : string) : result value :=
  match obj with
  | VDict d =>
      match lookup key d with
      | Some v => Ok v
      | None => Raise (KeyError key)
      end
  | _ => Raise TypeError
  end.

(** [iter(obj)]: a list gives its elements, a dictionary its keys, a string
    its characters; nothing else is iterable. *)
Definition iterate (obj : value) : result (list value) :=
  match obj with
  | VList l => Ok l
  | VDict d => Ok (map (fun kv => VStr (fst kv)) d)
  | VStr s => Ok (map (fun c => VStr (String c EmptyString)) (list_ascii_of_string s))
  | _ => Raise TypeError
  end.

(** [bool(obj)], as [if res:] tests it. *)
Definition truthy (obj : value) : bool :=
  match obj with
  | VNone => false
  | VBool b => b
  | VInt n => negb (n =? 0)%Z
  | VStr s => negb (s =? "")%string
  | VOid _ => true
  | VList l => negb (Nat.eqb (List.length l) 0)
  | VDict d => negb (Nat.eqb (List.length d) 0)
  end.

(** [[f(x) for x in xs]]: left to right, the first exception ends it. *)
Fixpoint comprehension {A B} (f : A -> result B) (xs : list A) : result (list B) :=
  match xs with
  | [] => Ok []
  | x :: rest =>
      (y <-- f x ;; ys <-- comprehension f rest ;; Ok (y :: ys))%result
  end.

(** ** What the layer takes from its libraries *)

Class Runtime := {
  (** bson: the object id a string denotes, if any *)
  parse_oid : string -> option ObjectId;
  (** Python: [str(obj)] *)
  str : value -> string;
  str_oid : forall o, str (VOid o) = oid_hex o;
  str_str : forall s, str (VStr s) = s;
  (** pydantic: validation of a field declared [str], [int], [bool] *)
  validate_str : value -> option string;
  validate_int : value -> option Z;
  validate_bool : value -> option bool;
  validate_str_ok : forall s, validate_str (VStr s) = Some s;
  validate_int_ok : forall n, validate_int (VInt n) = Some n;
  validate_bool_ok : forall b, validate_bool (VBool b) = Some b;
  (** uuid: the hexadecimal text of the n-th token [uuid4()] draws *)
  uuid4_hex : nat -> string
}.

(** The identifier argument of the layer's methods, [str | ObjectID]. *)
Inductive id_arg :=
| IdStr (s : string)
| IdOid (o : ObjectId).

(** [ObjectID(id)]. *)
Definition ObjectID `{Runtime} (id : id_arg) : result ObjectId :=
  match id with
  | IdOid o => Ok o
  | IdStr s =>
      match parse_oid s with
      | Some o => Ok o
      | None => Raise InvalidId
      end
  end.

(** The driver's source of object ids: the n-th id [ObjectId()] makes. *)
Class Driver := { new_oid : nat -> ObjectId }.

(** ** The document collection *)

(** A caller's transaction handle; the layer passes it on untouched. *)
Inductive ClientSession := Session (n : nat).

(** The handle on the collection whose documents the world holds. *)
Inductive AsyncIOMotorCollection : Set := MotorCollection.

(** The query documents the layer builds. *)
Inductive query :=
| QAll                                          (* {} *)
| QId (o : ObjectId)                            (* {"_id": o} *)
| QIdItem (o : ObjectId) (item_id : string).    (* {"_id": o, "items.id": item_id} *)

(** The update documents the layer builds. *)
Inductive update :=
| Push (item : value)         (* {"$push": {"items": item}} *)
| SetChecked (v : value)      (* {"$set": {"items.$.is_checked": v}} *)
| Pull (item_id : string).    (* {"$pull": {"items": {"id": item_id}}} *)

Inductive request :=
| ReqFind (q : query) (session : option ClientSession)
| ReqFindOne (q : query) (session : option ClientSession)
| ReqDeleteOne (q : query) (session : option ClientSession)
| ReqInsertOne (document : dict) (session : option ClientSession).

Record world := mkWorld {
  documents : list dict;     (* the collection, in the store's own order *)
  requests : list request;   (* the round trips made so far, oldest first *)
  drawn : nat;               (* how many tokens uuid4 has handed out *)
  generated : nat            (* how many object ids the driver has made *)
}.

(** [{"_id": o}] on a document. *)
Definition matches_id (o : ObjectId) (d : dict) : bool :=
  match lookup "_id" d with
  | Some (VOid o') => oid_eqb o o'
  | _ => false
  end.

Definition is_str (s : string) (v : value) : bool :=
  match v with
  | VStr s' => (s' =? s)%string
  | _ => false
  end.

(** [{"id": item_id}] on an array element: its [id] is that string, or an
    array that holds it. *)
Definition item_matches (item_id : string) (e : value) : bool :=
  match e with
  | VDict d =>
      match lookup "id" d with
      | Some (VStr s) => (s =? item_id)%string
      | Some (VList l) => existsb (is_str item_id) l
      | _ => false
      end
  | _ => false
  end.

(** [{"items.id": item_id}] on a document: some element of the array
    [items] matches, or [items] is itself an embedded document that does. *)
Definition matches_item (item_id : string) (d : dict) : bool :=
  match lookup "items" d with
  | Some (VList l) => existsb (item_matches item_id) l
  | Some (VDict sub) => item_matches item_id (VDict sub)
  | _ => false
  end.

Definition matches (q : query) (d : dict) : bool :=
  match q with
  | QAll => true
  | QId o => matches_id o d
  | QIdItem o item_id => matches_id o d && matches_item item_id d
  end.

(** The first document a query matches. *)
Definition first_match (q : query) (docs : list dict) : option dict :=
  find (matches q) docs.

(** The collection without the first document a query matches. *)
Fixpoint remove_first (q : query) (docs : list dict) : list dict :=
  match docs with
  | [] => []
  | d :: rest => if matches q d then rest else d :: remove_first q rest
  end.

(** The sort key order of the store on the values a [name] can hold:
    values of different kinds are ordered by kind (an absent field counts as
    null), numbers by value, strings byte by byte, object ids by their
    bytes.  Embedded documents and arrays are told apart by kind only. *)
Definition bson_kind (v : option value) : Z :=
  match v with
  | None | Some VNone => 1
  | Some (VInt _) => 2
  | Some (VStr _) => 3
  | Some (VDict _) => 4
  | Some (VList _) => 5
  | Some (VOid _) => 6
  | Some (VBool _) => 7
  end.

Definition key_le (a b : option value) : bool :=
  match a, b with
  | Some (VInt x), Some (VInt y) => (x <=? y)%Z
  | Some (VStr x), Some (VStr y) => String.leb x y
  | Some (VOid x), Some (VOid y) => String.leb (oid_hex x) (oid_hex y)
  | Some (VBool x), Some (VBool y) => implb x y
  | _, _ => (bson_kind a <=? bson_kind b)%Z
  end.

Definition name_le (a b : dict) : bool :=
  key_le (lookup "name" a) (lookup "name" b).

Fixpoint insert_sorted (d : dict) (sorted : list dict) : list dict :=
  match sorted with
  | [] => [d]
  | x :: rest => if name_le d x then d :: x :: rest else x :: insert_sorted d rest
  end.

(** [sort={"name": 1}]: ascending by name, documents of equal name in the
    store's own order. *)
Definition sort_by_name (docs : list dict) : list dict :=
  fold_right insert_sorted [] docs.

Definition field (key : string) (d : dict) : dict :=
  match lookup key d with
  | Some v => [(key, v)]
  | None => []
  end.

(** [projection={"name": 1, "item_count": {"$size": "$items"}}]: the
    document's [_id] and [name] and the length of its array [items]; the
    store refuses [$size] on anything but an array. *)
Definition project (d : dict) : result dict :=
  match lookup "items" d with
  | Some (VList l) =>
      Ok (field "_id" d ++ field "name" d
          ++ [("item_count", VInt (Z.of_nat (List.length l)))])%list
  | _ => Raise OperationFailure
  end.

(** ** Computations of the layer *)

Definition M (A : Type) : Type := world -> result A * world.

Definition ret {A} (a : A) : M A := fun w => (Ok a, w).

Definition bind {A B} (m : M A) (k : A -> M B) : M B :=
  fun w =>
    match m w with
    | (Ok a, w') => k a w'
    | (Raise e, w') => (Raise e, w')
    end.

Definition lift {A} (r : result A) : M A := fun w => (r, w).

Declare Scope dal_scope.
Delimit Scope dal_scope with dal.
Notation "x <- m ;; k" := (bind m (fun x => k))
  (at level 61, m at next level, right associativity) : dal_scope.

Definition sent (r : request) (w : world) : world :=
  mkWorld (documents w) (requests w ++ [r]) (drawn w) (generated w).

Definition stored (docs : list dict) (w : world) : world :=
  mkWorld docs (requests w) (drawn w) (generated w).

Inductive ReturnDocument := BEFORE | AFTER.

(** Equality of stored values, field order included. *)
Fixpoint value_eqb (a b : value) : bool :=
  match a, b with
  | VNone, VNone => true
  | VBool x, VBool y => Bool.eqb x y
  | VInt x, VInt y => (x =? y)%Z
  | VStr x, VStr y => (x =? y)%string
  | VOid x, VOid y => oid_eqb x y
  | VList x, VList y =>
      (fix all2 (x y : list value) : bool :=
         match x, y with
         | [], [] => true
         | a :: x', b :: y' => value_eqb a b && all2 x' y'
         | _, _ => false
         end) x y
  | VDict x, VDict y =>
      (fix all2 (x y : list (string * value)) : bool :=
         match x, y with
         | [], [] => true
         | (k, a) :: x', (k', b) :: y' =>
             (k =? k')%string && value_eqb a b && all2 x' y'
         | _, _ => false
         end) x y
  | _, _ => false
  end.

(** The document's [_id] is [v]. *)
Definition has_id (v : value) (d : dict) : bool :=
  match lookup "_id" d with
  | Some v' => value_eqb v v'
  | None => false
  end.

(** [del d[key]] *)
Fixpoint remove_key (key : string) (d : dict) : dict :=
  match d with
  | [] => []
  | (k, v) :: rest =>
      if (k =? key)%string then remove_key key rest else (k, v) :: remove_key key rest
  end.

(** The store takes the document in, behind the others, unless a document
    with that [_id] is there already. *)
Definition add_document (v : value) (doc : dict) (w : world) : result value * world :=
  if existsb (has_id v) (documents w)
  then (Raise OperationFailure, w)
  else (Ok v, stored (documents w ++ [doc]) w).

(** The methods of a Motor collection that the layer calls.  Each call of
    [find], [find_one], [delete_one] and [insert_one] is one round trip. *)
Module Collection.

(** [find(q, projection={"name": 1, "item_count": {"$size": "$items"}},
    sort={"name": 1}, session=session)], read to its end. *)
Definition find (collection : AsyncIOMotorCollection) (q : query)
    (session : option ClientSession) : M (list dict) :=
  fun w =>
    (comprehension project (sort_by_name (filter (matches q) (documents w))),
     sent (ReqFind q session) w).

Definition find_one (collection : AsyncIOMotorCollection) (q : query)
    (session : option ClientSession) : M value :=
  fun w =>
    (Ok match first_match q (documents w) with
        | Some d => VDict d
        | None => VNone
        end,
     sent (ReqFindOne q session) w).

(** Returns the response's [deleted_count]. *)
Definition delete_one (collection : AsyncIOMotorCollection) (q : query)
    (session : option ClientSession) : M nat :=
  fun w =>
    let w' := sent (ReqDeleteOne q session) w in
    match first_match q (documents w) with
    | Some _ => (Ok 1, stored (remove_first q (documents w)) w')
    | None => (Ok 0, w')
    end.

(** Returns the response's [inserted_id].  A document without [_id] gets a
    new object id from the driver, and [_id] is sent first; an array is no
    [_id]. *)
Definition insert_one `{Driver} (collection : AsyncIOMotorCollection)
    (document : dict) (session : option ClientSession) : M value :=
  fun w =>
    match lookup "_id" document with
    | None =>
        let v := VOid (new_oid (generated w)) in
        let doc := ("_id", v) :: document in
        add_document v doc
          (mkWorld (documents w) (requests w ++ [ReqInsertOne doc session])
             (drawn w) (S (generated w)))
    | Some v =>
        let doc := ("_id", v) :: remove_key "_id" document in
        let w' := sent (ReqInsertOne doc session) w in
        match v with
        | VList _ => (Raise OperationFailure, w')
        | _ => add_document v doc w'
        end
    end.

(** A Motor collection has no method of this name: the attribute is the
    sub-collection so named, and calling it raises [TypeError].  Nothing is
    sent to the store. *)
Definition find_one_and_update_one (collection : AsyncIOMotorCollection)
    (q : query) (u : update) (session : option ClientSession)
    (return_document : ReturnDocument) : M value :=
  fun w => (Raise TypeError, w).

End Collection.

(** [uuid4().hex] *)
Definition uuid4 `{Runtime} : M string :=
  fun w =>
    (Ok (uuid4_hex (drawn w)),
     mkWorld (documents w) (requests w) (S (drawn w)) (generated w)).

(** ** View models *)

Module ListSummary.

Record t := mk { id : string; name : string; item_count : Z }.

Section Model.
Context `{Runtime}.

(** [ListSummary(id=..., name=..., item_count=...)] *)
Definition new (id name item_count : value) : result t :=
  match validate_str id, validate_str name, validate_int item_count with
  | Some i, Some n, Some c => Ok (mk i n c)
  | _, _, _ => Raise ValidationError
  end.

Definition from_doc (doc : value) : result t :=
  (_id <-- subscript doc "_id" ;;
   name <-- subscript doc "name" ;;
   item_count <-- subscript doc "item_count" ;;
   new (VStr (str _id)) name item_count)%result.
End Model.

End ListSummary.

Module ToDoListItem.

Record t := mk { id : string; label : string; is_checked : bool }.

Section Model.
Context `{Runtime}.

Definition new (id label is_checked : value) : result t :=
  match validate_str id, validate_str label, validate_bool is_checked with
  | Some i, Some l, Some c => Ok (mk i l c)
  | _, _, _ => Raise ValidationError
  end.

Definition from_doc (item : value) : result t :=
  (_id <-- subscript item "_id" ;;
   label <-- subscript item "label" ;;
   is_checked <-- subscript item "is_checked" ;;
   new (VStr (str _id)) label is_checked)%result.
End Model.

End ToDoListItem.

Module ToDoList.

Record t := mk { id : string; name : string; items : list ToDoListItem.t }.

Section Model.
Context `{Runtime}.

Definition new (id name : value) (items : list ToDoListItem.t) : result t :=
  match validate_str id, validate_str name with
  | Some i, Some n => Ok (mk i n items)
  | _, _ => Raise ValidationError
  end.

Definition from_doc (doc : value) : result t :=
  (_id <-- subscript doc "_id" ;;
   name <-- subscript doc "name" ;;
   items_field <-- subscript doc "items" ;;
   elements <-- iterate items_field ;;
   items <-- comprehension ToDoListItem.from_doc elements ;;
   new (VStr (str _id)) name items)%result.
End Model.

End ToDoList.

(** ** The access layer *)

Module ToDoDAL.

(** An object of the class: its attribute dictionary. *)
Record t := mk { attributes : list (string * AsyncIOMotorCollection) }.

(** [ToDoDAL(todo_collection)] *)
Definition __init__ (todo_collection : AsyncIOMotorCollection) : t :=
  mk [("_todo_collection", todo_collection)].

Fixpoint attribute (name : string)
    (attrs : list (string * AsyncIOMotorCollection)) : option AsyncIOMotorCollection :=
  match attrs with
  | [] => None
  | (k, v) :: rest => if (k =? name)%string then Some v else attribute name rest
  end.

(** [self.name], for a name the class does not define itself (it defines
    its seven methods and nothing else). *)
Definition getattr (self : t) (name : string) : result AsyncIOMotorCollection :=
  match attribute name (attributes self) with
  | Some v => Ok v
  | None => Raise (AttributeError name)
  end.

Section Layer.
Context `{Runtime} `{Driver}.
Open Scope dal_scope.

(** What the generator has yielded, and the exception that ended it,
    if one did. *)
Fixpoint yield_each (docs : list dict) : list ListSummary.t * option exn :=
  match docs with
  | [] => ([], None)
  | doc :: rest =>
      match ListSummary.from_doc (VDict doc) with
      | Raise e => ([], Some e)
      | Ok summary =>
          let (more, e) := yield_each rest in (summary :: more, e)
      end
  end.

Definition list_todo_lists (self : t) (session : option ClientSession)
  : world -> (list ListSummary.t * option exn) * world :=
  fun w =>
    match getattr self "todo_collection" with
    | Raise e => (([], Some e), w)
    | Ok todo_collection =>
        match Collection.find todo_collection QAll session w with
        | (Raise e, w') => (([], Some e), w')
        | (Ok cursor, w') => (yield_each cursor, w')
        end
    end.

Definition create_todo_list (self : t) (name : string)
    (session : option ClientSession) : M string :=
  todo_collection <- lift (getattr self "todo_collection") ;;
  inserted_id <- Collection.insert_one todo_collection
                   [("name", VStr name); ("items", VList [])] session ;;
  ret (str inserted_id).

Definition get_todo_list (self : t) (id : id_arg) (session : option ClientSession)
  : M ToDoList.t :=
  todo_collection <- lift (getattr self "todo_collection") ;;
  oid <- lift (ObjectID id) ;;
  doc <- Collection.find_one todo_collection (QId oid) session ;;
  lift (ToDoList.from_doc doc).

Definition delete_todo_list (self : t) (id : id_arg)
    (session : option ClientSession) : M bool :=
  todo_collection <- lift (getattr self "todo_collection") ;;
  oid <- lift (ObjectID id) ;;
  deleted_count <- Collection.delete_one todo_collection (QId oid) session ;;
  ret (Nat.eqb deleted_count 1).

(** The item document [create_item] pushes. *)
Definition new_item (token label : string) : value :=
  VDict [("id", VStr token); ("label", VStr label); ("is_checked", VBool false)].

Definition create_item (self : t) (id : id_arg) (label : string)
    (session : option ClientSession) : M (option ToDoList.t) :=
  todo_collection <- lift (getattr self "todo_collection") ;;
  oid <- lift (ObjectID id) ;;
  token <- uuid4 ;;
  res <- Collection.find_one_and_update_one todo_collection
           (QId oid) (Push (new_item token label)) session AFTER ;;
  if truthy res
  then (l <- lift (ToDoList.from_doc res) ;; ret (Some l))
  else ret None.

Definition set_checked_state (self : t) (doc_id : id_arg) (item_id : string)
    (is_checked : bool) (session : option ClientSession)
  : M (option ToDoList.t) :=
  todo_collection <- lift (getattr self "todo_collection") ;;
  oid <- lift (ObjectID doc_id) ;;
  res <- Collection.find_one_and_update_one todo_collection
           (QIdItem oid item_id) (SetChecked (VBool is_checked)) session AFTER ;;
  if truthy res
  then (l <- lift (ToDoList.from_doc res) ;; ret (Some l))
  else ret None.

Definition delete_item (self : t) (doc_id : id_arg) (item_id : string)
    (session : option ClientSession) : M (option ToDoList.t) :=
  todo_collection <- lift (getattr self "todo_collection") ;;
  oid <- lift (ObjectID doc_id) ;;
  res <- Collection.find_one_and_update_one todo_collection
           (QIdItem oid item_id) (Pull item_id) session AFTER ;;
  if truthy res
  then (l <- lift (ToDoList.from_doc res) ;; ret (Some l))
  else ret None.
End Layer.

End ToDoDAL.

(** ** A runtime to evaluate with *)

Definition is_hex_digit (c : ascii) : bool :=
  let n := nat_of_ascii c in
  (((48 <=? n) && (n <=? 57)) || ((97 <=? n) && (n <=? 102))
   || ((65 <=? n) && (n <=? 70)))%nat.

Definition lower (c : ascii) : ascii :=
  let n := nat_of_ascii c in
  if ((65 <=? n) && (n <=? 90))%nat then ascii_of_nat (n + 32) else c.

Definition is_space (c : ascii) : bool :=
  let n := nat_of_ascii c in
  ((n =? 32) || ((9 <=? n) && (n <=? 13)))%nat.

(** [bytes.fromhex], as hexadecimal text: pairs of hexadecimal digits,
    with white space skipped before a pair and at the end. *)
Fixpoint fromhex (cs : list ascii) : option (list ascii) :=
  match cs with
  | [] => Some []
  | c :: rest =>
      if is_space c then fromhex rest
      else
        match rest with
        | d :: rest' =>
            if is_hex_digit c && is_hex_digit d
            then option_map (fun t => lower c :: lower d :: t) (fromhex rest')
            else None
        | [] => None
        end
  end.

(** bson takes a string of twenty-four characters that [bytes.fromhex]
    reads. *)
Definition hex24 (s : string) : option ObjectId :=
  let cs := list_ascii_of_string s in
  if Nat.eqb (List.length cs) 24
  then option_map (fun h => mkObjectId (string_of_list_ascii h)) (fromhex cs)
  else None.

Definition hex_digit (n : N) : ascii :=
  ascii_of_N (if (n <? 10)%N then 48 + n else 87 + n).

(** The [digits] low hexadecimal digits of [n], most significant first. *)
Fixpoint hex_of (digits : nat) (n : N) : string :=
  match digits with
  | O => ""
  | S k => hex_of k (n / 16) ++ String (hex_digit (n mod 16)) ""
  end.

Fixpoint join (sep : string) (parts : list string) : string :=
  match parts with
  | [] => ""
  | [p] => p
  | p :: rest => p ++ sep ++ join sep rest
  end.

Definition single_quote : ascii := ascii_of_nat 39.
Definition double_quote : ascii := ascii_of_nat 34.
Definition backslash : ascii := ascii_of_nat 92.

Definition holds (c : ascii) (s : string) : bool :=
  existsb (Ascii.eqb c) (list_ascii_of_string s).

(** One character of a string inside [repr]'s quotes. *)
Definition escaped (quote c : ascii) : string :=
  let n := nat_of_ascii c in
  if (Ascii.eqb c backslash || Ascii.eqb c quote)%bool
  then String backslash (String c "")
  else if (n =? 9)%nat then String backslash "t"
  else if (n =? 10)%nat then String backslash "n"
  else if (n =? 13)%nat then String backslash "r"
  else if ((n <? 32) || (n =? 127))%nat
  then String backslash ("x" ++ hex_of 2 (N.of_nat n))
  else String c "".

(** [repr] of a string: in single quotes, or in double quotes when the
    string holds a single quote and no double one. *)
Definition quoted (s : string) : string :=
  let quote :=
    if holds single_quote s && negb (holds double_quote s)
    then double_quote else single_quote in
  String quote
    (concat "" (map (escaped quote) (list_ascii_of_string s)) ++ String quote "").

(** [repr(obj)] *)
Fixpoint repr (v : value) : string :=
  match v with
  | VNone => "None"
  | VBool true => "True"
  | VBool false => "False"
  | VInt n => NilEmpty.string_of_int (Z.to_int n)
  | VStr s => quoted s
  | VOid o => "ObjectId(" ++ quoted (oid_hex o) ++ ")"
  | VList l => "[" ++ join ", " (map repr l) ++ "]"
  | VDict d =>
      "{" ++ join ", " (map (fun kv : string * value =>
                           let (k, x) := kv in quoted k ++ ": " ++ repr x) d)
      ++ "}"
  end.

Definition reference_str (v : value) : string :=
  match v with
  | VStr s => s
  | VOid o => oid_hex o
  | _ => repr v
  end.

Definition digit_value (c : ascii) : option Z :=
  let n := nat_of_ascii c in
  if ((48 <=? n) && (n <=? 57))%nat then Some (Z.of_nat (n - 48)) else None.

Fixpoint digits_value (acc : Z) (cs : list ascii) : option Z :=
  match cs with
  | [] => Some acc
  | c :: rest =>
      match digit_value c with
      | Some d => digits_value (10 * acc + d) rest
      | None => None
      end
  end.

(** A decimal numeral with an optional sign. *)
Definition numeral (s : string) : option Z :=
  match list_ascii_of_string s with
  | [] => None
  | c :: rest =>
      if (nat_of_ascii c =? 45)%nat
      then match rest with
           | [] => None
           | _ => option_map Z.opp (digits_value 0 rest)
           end
      else if (nat_of_ascii c =? 43)%nat
      then match rest with
           | [] => None
           | _ => digits_value 0 rest
           end
      else digits_value 0 (c :: rest)
  end.

Definition lowercase (s : string) : string :=
  string_of_list_ascii (map lower (list_ascii_of_string s)).

(** pydantic's words for a boolean. *)
Definition truth_word (s : string) : option bool :=
  let w := lowercase s in
  if existsb (String.eqb w) ["1"; "on"; "t"; "true"; "y"; "yes"] then Some true
  else if existsb (String.eqb w) ["0"; "off"; "f"; "false"; "n"; "no"] then Some false
  else None.

Definition lax_str (v : value) : option string :=
  match v with
  | VStr s => Some s
  | _ => None
  end.

Definition lax_int (v : value) : option Z :=
  match v with
  | VInt n => Some n
  | VBool b => Some (if b then 1 else 0)%Z
  | VStr s => numeral s
  | _ => None
  end.

Definition lax_bool (v : value) : option bool :=
  match v with
  | VBool b => Some b
  | VInt 0 => Some false
  | VInt 1 => Some true
  | VStr s => truth_word s
  | _ => None
  end.

(** pydantic's default validation of the values a document holds here;
    tokens are drawn in sequence. *)
Definition reference_runtime : Runtime := {|
  parse_oid := hex24;
  str := reference_str;
  str_oid := fun _ => eq_refl;
  str_str := fun _ => eq_refl;
  validate_str := lax_str;
  validate_int := lax_int;
  validate_bool := lax_bool;
  validate_str_ok := fun _ => eq_refl;
  validate_int_ok := fun _ => eq_refl;
  validate_bool_ok := fun _ => eq_refl;
  uuid4_hex := fun n => hex_of 32 (N.of_nat n)
|}.


(** ** Documents of the stored shape *)








(** An item and a list document in the shape the decoders read: the item's
    identity under [_id]. *)
Definition decodable_item (i : ToDoListItem.t) : value :=
  VDict [("_id", VStr (ToDoListItem.id i));
         ("label", VStr (ToDoListItem.label i));
         ("is_checked", VBool (ToDoListItem.is_checked i))].

Definition decodable_list (o : ObjectId) (name : string)
    (items : list ToDoListItem.t) : value :=
  VDict [("_id", VOid o); ("name", VStr name);
         ("items", VList (map decodable_item items))].

(** ** Sample data *)

Definition groceries_id : string := "65a1f0c2b3d4e5f6a7b8c9d0".
Definition groceries_oid : ObjectId := mkObjectId groceries_id.




(** The object the constructor makes, and one that has been given the
    attribute the methods read. *)
Definition constructed : ToDoDAL.t := ToDoDAL.__init__ MotorCollection.


(** A document whose [items] is a string, and one without a [name]. *)
Definition items_as_text : value :=
  VDict [("_id", VOid groceries_oid); ("name", VStr "Groceries"); ("items", VStr "")].

Definition nameless : dict :=
  [("_id", VOid groceries_oid); ("items", VList [])].

(** A document whose [items] is a text of two characters. *)
Definition items_as_longer_text : dict :=
  [("_id", VOid groceries_oid); ("name", VStr "Groceries"); ("items", VStr "ab")].

(** ** Facts about the collection *)

(** ** Facts about the collection *)






(** *** The enumeration's sort *)













(** ** Properties of the layer *)

Ltac run :=
  unfold ToDoDAL.get_todo_list, ToDoDAL.delete_todo_list, ToDoDAL.create_item,
    ToDoDAL.set_checked_state, ToDoDAL.delete_item, ToDoDAL.create_todo_list,
    bind, lift, ret, uuid4,
    Collection.find_one, Collection.delete_one, Collection.insert_one,
    Collection.find_one_and_update_one.

Section Properties.
Context {RT : Runtime}.

(** C1: the item document [create_item] writes does not decode.  It carries
    its identity under [id]; [ToDoListItem.from_doc] asks for [_id] and
    raises [KeyError] before it reads the label or the flag. *)
Theorem created_item_fails_to_decode (token label : string) :
  ToDoListItem.from_doc (ToDoDAL.new_item token label) = Raise (KeyError "_id").
Proof. reflexivity. Qed.





(** C8: [ToDoList.from_doc] returns no list for a document that lacks
    [_id], [name] or [items], whose [items] cannot be iterated, one of whose
    items does not decode, or whose name pydantic rejects.  What it raises
    is the exception of the failing step: [KeyError] naming the field,
    [TypeError], the item's own exception, [ValidationError]. *)
Theorem from_doc_raises_the_failing_steps_exception (d : dict) :
  (lookup "_id" d = None ->
     ToDoList.from_doc (VDict d) = Raise (KeyError "_id"))
  /\ (lookup "_id" d <> None -> lookup "name" d = None ->
      ToDoList.from_doc (VDict d) = Raise (KeyError "name"))
  /\ (lookup "_id" d <> None -> lookup "name" d <> None ->
      lookup "items" d = None ->
      ToDoList.from_doc (VDict d) = Raise (KeyError "items"))
  /\ (forall v,
        lookup "_id" d <> None -> lookup "name" d <> None ->
        lookup "items" d = Some v -> iterate v = Raise TypeError ->
        ToDoList.from_doc (VDict d) = Raise TypeError)
  /\ (forall v elements e,
        lookup "_id" d <> None -> lookup "name" d <> None ->
        lookup "items" d = Some v -> iterate v = Ok elements ->
        comprehension ToDoListItem.from_doc elements = Raise e ->
        ToDoList.from_doc (VDict d) = Raise e)
  /\ (forall n v elements items,
        lookup "_id" d <> None -> lookup "name" d = Some n ->
        lookup "items" d = Some v -> iterate v = Ok elements ->
        comprehension ToDoListItem.from_doc elements = Ok items ->
        validate_str n = None ->
        ToDoList.from_doc (VDict d) = Raise ValidationError).
Proof.
  unfold ToDoList.from_doc, ToDoList.new, subscript.
  destruct (lookup "_id" d) as [i |]; simpl.
  2: { repeat split; intros; congruence. }
  destruct (lookup "name" d) as [n |]; simpl.
  2: { repeat split; intros; congruence. }
  destruct (lookup "items" d) as [v |]; simpl.
  2: { repeat split; intros; congruence. }
  repeat split; try (intros; congruence).
  - intros v' _ _ E Hi. injection E as <-. now rewrite Hi.
  - intros v' elements e _ _ E Hi Hc. injection E as <-.
    rewrite Hi. simpl. now rewrite Hc.
  - intros n' v' elements items _ En E Hi Hc Hv.
    injection E as <-. injection En as <-.
    rewrite Hi. simpl. rewrite Hc. simpl. rewrite Hv.
    now destruct (validate_str (VStr (str i))).
Qed.

Lemma decodable_item_round_trip (i : ToDoListItem.t) :
  ToDoListItem.from_doc (decodable_item i) = Ok i.
Proof.
  unfold ToDoListItem.from_doc, ToDoListItem.new, decodable_item. simpl.
  rewrite str_str, !validate_str_ok, validate_bool_ok. now destruct i.
Qed.

(** X14: a list document whose items carry their identity under [_id]
    decodes to the list it describes: the identifier as text, the name, and
    every item in order with its identity, label and flag. *)
Theorem decodable_list_round_trip
    (o : ObjectId) (name : string) (items : list ToDoListItem.t) :
  ToDoList.from_doc (decodable_list o name items)
  = Ok (ToDoList.mk (oid_hex o) name items).
Proof.
  assert (Hitems : comprehension ToDoListItem.from_doc (map decodable_item items)
                   = Ok items).
  { induction items as [| i items IH]; [reflexivity |].
    cbn [map comprehension]. rewrite decodable_item_round_trip. simpl.
    now rewrite IH. }
  unfold ToDoList.from_doc, ToDoList.new, decodable_list. simpl.
  rewrite Hitems. simpl. now rewrite str_oid, !validate_str_ok.
Qed.

(** X15: when a document's [items] is text or an embedded document instead
    of an array, [ToDoList.from_doc] iterates over it all the same: a
    non-empty one raises [TypeError] at its first character or key, an
    empty one decodes to a list without items. *)
Theorem from_doc_iterates_text_and_documents
    (d : dict) (i : value) (n : string) :
  lookup "_id" d = Some i ->
  lookup "name" d = Some (VStr n) ->
  (forall c s, lookup "items" d = Some (VStr (String c s)) ->
     ToDoList.from_doc (VDict d) = Raise TypeError)
  /\ (forall kv rest, lookup "items" d = Some (VDict (kv :: rest)) ->
        ToDoList.from_doc (VDict d) = Raise TypeError)
  /\ (lookup "items" d = Some (VStr "") \/ lookup "items" d = Some (VDict []) ->
      ToDoList.from_doc (VDict d) = Ok (ToDoList.mk (str i) n [])).
Proof.
  intros Hi Hn. unfold ToDoList.from_doc, ToDoList.new, subscript.
  rewrite Hi, Hn. simpl. repeat split.
  - intros c s ->. reflexivity.
  - intros kv rest ->. reflexivity.
  - intros [-> | ->]; simpl; now rewrite !validate_str_ok.
Qed.

(** *** The object the constructor makes *)

(** The constructor stores the handle under [_todo_collection] only. *)
Lemma constructed_has_no_todo_collection (collection : AsyncIOMotorCollection) :
  ToDoDAL.getattr (ToDoDAL.__init__ collection) "todo_collection"
  = Raise (AttributeError "todo_collection").
Proof. reflexivity. Qed.

(** C2: on the object the constructor makes, [create_item] raises
    [AttributeError] at [self.todo_collection], for every identifier and
    label: nothing is pushed, no token is drawn, no request is sent, and no
    list comes back. *)
Theorem create_item_raises_AttributeError
    (collection : AsyncIOMotorCollection) (id : id_arg) (label : string)
    (session : option ClientSession) (w : world) :
  ToDoDAL.create_item (ToDoDAL.__init__ collection) id label session w
  = (Raise (AttributeError "todo_collection"), w).
Proof. run. now rewrite constructed_has_no_todo_collection. Qed.

(** C3: on the object the constructor makes, [get_todo_list] raises
    [AttributeError] at [self.todo_collection] for every identifier, one
    that matches no document and one that does not decode alike, before
    [ObjectID(id)] is evaluated and before any request. *)
Theorem get_todo_list_raises_AttributeError
    (collection : AsyncIOMotorCollection) (id : id_arg)
    (session : option ClientSession) (w : world) :
  ToDoDAL.get_todo_list (ToDoDAL.__init__ collection) id session w
  = (Raise (AttributeError "todo_collection"), w).
Proof. run. now rewrite constructed_has_no_todo_collection. Qed.

(** C4: on the object the constructor makes, [delete_todo_list] raises
    [AttributeError] at [self.todo_collection] for every identifier: it
    answers neither [true] nor [false] and removes nothing. *)
Theorem delete_todo_list_raises_AttributeError
    (collection : AsyncIOMotorCollection) (id : id_arg)
    (session : option ClientSession) (w : world) :
  ToDoDAL.delete_todo_list (ToDoDAL.__init__ collection) id session w
  = (Raise (AttributeError "todo_collection"), w).
Proof. run. now rewrite constructed_has_no_todo_collection. Qed.

(** C5: on the object the constructor makes, [set_checked_state] raises
    [AttributeError] at [self.todo_collection] for every pair of
    identifiers, whether a list or an item is missing or both are there:
    it never answers [None]. *)
Theorem set_checked_state_raises_AttributeError
    (collection : AsyncIOMotorCollection) (doc_id : id_arg) (item_id : string)
    (is_checked : bool) (session : option ClientSession) (w : world) :
  ToDoDAL.set_checked_state (ToDoDAL.__init__ collection)
    doc_id item_id is_checked session w
  = (Raise (AttributeError "todo_collection"), w).
Proof. run. now rewrite constructed_has_no_todo_collection. Qed.

(** C6: on the object the constructor makes, the generator
    [list_todo_lists] yields nothing and ends with [AttributeError] at
    [self.todo_collection], whatever the collection holds; no [find] is
    sent. *)
Theorem list_todo_lists_raises_AttributeError
    (collection : AsyncIOMotorCollection)
    (session : option ClientSession) (w : world) :
  ToDoDAL.list_todo_lists (ToDoDAL.__init__ collection) session w
  = (([], Some (AttributeError "todo_collection")), w).
Proof.
  unfold ToDoDAL.list_todo_lists.
  now rewrite constructed_has_no_todo_collection.
Qed.

(** C7: on every object of the class, with the attribute set or not,
    [set_checked_state] ends in an exception and leaves the world as it
    was: no flag is set in the store and no list is handed back. *)
Theorem set_checked_state_only_raises
    (self : ToDoDAL.t) (doc_id : id_arg) (item_id : string)
    (is_checked : bool) (session : option ClientSession) (w : world) :
  exists e,
    ToDoDAL.set_checked_state self doc_id item_id is_checked session w
    = (Raise e, w).
Proof.
  run.
  destruct (ToDoDAL.getattr self "todo_collection") as [collection | e];
    [| now exists e].
  destruct (ObjectID doc_id) as [oid | e]; [| now exists e].
  now exists TypeError.
Qed.

(** C9: on the object the constructor makes, an identifier string, whether
    it parses or not, never leads to [InvalidId]: each of the five methods
    raises [AttributeError] at [self.todo_collection], which is evaluated
    before [ObjectID(id)].  No request is sent. *)
Theorem every_identifier_raises_AttributeError
    (collection : AsyncIOMotorCollection) (s item_id label : string)
    (is_checked : bool) (session : option ClientSession) (w : world) :
  let self := ToDoDAL.__init__ collection in
  ToDoDAL.get_todo_list self (IdStr s) session w
  = (Raise (AttributeError "todo_collection"), w)
  /\ ToDoDAL.delete_todo_list self (IdStr s) session w
     = (Raise (AttributeError "todo_collection"), w)
  /\ ToDoDAL.create_item self (IdStr s) label session w
     = (Raise (AttributeError "todo_collection"), w)
  /\ ToDoDAL.set_checked_state self (IdStr s) item_id is_checked session w
     = (Raise (AttributeError "todo_collection"), w)
  /\ ToDoDAL.delete_item self (IdStr s) item_id session w
     = (Raise (AttributeError "todo_collection"), w).
Proof.
  cbv zeta. run. rewrite constructed_has_no_todo_collection. repeat split.
Qed.

(** C10: on the object the constructor makes, [delete_item] raises
    [AttributeError] at [self.todo_collection] for every pair of
    identifiers: nothing is pulled and no list comes back. *)
Theorem delete_item_raises_AttributeError
    (collection : AsyncIOMotorCollection) (doc_id : id_arg) (item_id : string)
    (session : option ClientSession) (w : world) :
  ToDoDAL.delete_item (ToDoDAL.__init__ collection) doc_id item_id session w
  = (Raise (AttributeError "todo_collection"), w).
Proof. run. now rewrite constructed_has_no_todo_collection. Qed.

(** *** An object that has the attribute [todo_collection] *)








Section Inserting.
Context {DR : Driver}.

(** X21: on the object the constructor makes, [create_todo_list] raises
    [AttributeError] at [self.todo_collection] for every name: no object id
    is made and nothing is inserted. *)
Theorem create_todo_list_raises_AttributeError
    (collection : AsyncIOMotorCollection) (name : string)
    (session : option ClientSession) (w : world) :
  ToDoDAL.create_todo_list (ToDoDAL.__init__ collection) name session w
  = (Raise (AttributeError "todo_collection"), w).
Proof. run. now rewrite constructed_has_no_todo_collection. Qed.





End Inserting.

End Properties.

(** ** The properties on the sample data *)

Lemma from_doc_nameless_witness :
  @ToDoList.from_doc reference_runtime (VDict nameless) = Raise (KeyError "name").
Proof.
  pose proof (@from_doc_raises_the_failing_steps_exception reference_runtime nameless)
    as (_ & Hname & _).
  apply Hname; [discriminate | reflexivity].
Defined.

(** A document whose [items] is the empty string decodes to a list with no
    items, and a document with no [name] fails with the [KeyError] of the
    lookup: no dedicated decode error, no exhaustive field check. *)
Lemma from_doc_accepts_items_as_text :
  @ToDoList.from_doc reference_runtime items_as_text
  = Ok (ToDoList.mk groceries_id "Groceries" [])
  /\ @ToDoList.from_doc reference_runtime (VDict nameless) = Raise (KeyError "name").
Proof. split; reflexivity. Qed.

Lemma from_doc_iterates_text_witness :
  @ToDoList.from_doc reference_runtime (VDict items_as_longer_text) = Raise TypeError.
Proof.
  pose proof (@from_doc_iterates_text_and_documents reference_runtime
                items_as_longer_text (VOid groceries_oid) "Groceries" eq_refl eq_refl)
    as (Htext & _).
  exact (Htext "a"%char "b" eq_refl).
Defined.









